(** * FoodDetails: the order-composition state of the food details screen

    A shallow embedding of [src/pages/FoodDetails/index.tsx]: the four pieces
    of component state ([food], [extras], [isFavorite], [foodQuantity]), the
    handlers that update them, the [cartTotal] derivation, the favorite toggle,
    the order submission and the loader run by the mount effect, then the
    header icon and the rendered view ([render]).

    Conventions.
    - A JavaScript [number] that holds a price or an amount is a value of an
      abstract number type [num] with the operations the source applies to it
      (class [JsNumber]).  The instance the program runs on is IEEE-754
      binary64 ([float_JsNumber], over Rocq's primitive floats); what does
      not depend on the arithmetic is stated over the class, what does is
      stated on that instance.
    - A JavaScript [number] that holds an identifier or a counter moved in
      steps of one ([Extra.quantity], [foodQuantity]) is a [Z]: doubles
      represent these integers exactly below 2^53.
    - A property of a JavaScript object that may be absent (the state starts
      as [{} as Food], and two handlers [delete] properties) is an [option];
      [None] reads as [undefined].
    - Requests sent to the REST API and to the navigator are returned as
      values of type [Request] next to the new state. *)

From Stdlib Require Import ZArith List String Bool Lia Permutation.
From Stdlib Require Import Floats.
Import ListNotations.

Set Implicit Arguments.
Local Open Scope Z_scope.

(** ** JavaScript numbers *)

(** The operations of [number] the component uses.  [parseFloat x] stands for
    the expression [Number.parseFloat(`${x}`)], whose argument may be
    [undefined]; [ofZ] reads a counter as a number. *)
Class JsNumber (num : Type) : Type := {
  zero : num;
  add : num -> num -> num;
  mul : num -> num -> num;
  ofZ : Z -> num;
  parseFloat : option num -> num
}.

(** ** Data model *)

(** [interface Extra]: [id], [name], [value], [quantity]. *)
Record Extra (num : Type) : Type := mkExtra {
  extra_id : Z;
  extra_name : string;
  extra_value : num;
  extra_quantity : Z
}.

(** [interface Food]: [id], [name], [description], [price], [image_url],
    [formattedPrice], [extras]; every property may be absent at run time. *)
Record Food (num : Type) : Type := mkFood {
  food_id : option Z;
  food_name : option string;
  food_description : option string;
  food_price : option num;
  food_image_url : option string;
  food_formattedPrice : option string;
  food_extras : option (list (Extra num))
}.

(** The four [useState] cells of the component. *)
Record State (num : Type) : Type := mkState {
  food : Food num;
  extras : list (Extra num);
  isFavorite : bool;
  foodQuantity : Z
}.

(** What the handlers send out: [api.post('favorites', _)],
    [api.delete(`favorites/${id}`)], [api.post('orders', _)] and
    [navigation.goBack()]. *)
Inductive Request (num : Type) : Type :=
| PostFavorites (body : Food num)
| DeleteFavorite (id : option Z)
| PostOrders (body : Food num)
| GoBack.

Arguments GoBack {num}.
Arguments DeleteFavorite {num} id.

(** [Array.prototype.findIndex]: the position of the first element that
    satisfies [p], or [-1]. *)
Fixpoint findIndex {A : Type} (p : A -> bool) (l : list A) : Z :=
  match l with
  | [] => -1
  | x :: l' =>
      if p x then 0
      else let i := findIndex p l' in if i =? -1 then -1 else i + 1
  end.

Section Component.

Context {num : Type} {N : JsNumber num}.

(** The external currency formatter [formatValue], from [utils/formatValue]
    (not part of this file); its argument may be [undefined]. *)
Variable formatValue : option num -> string.

(** *** Property updates *)

(** [{ ...extra, quantity: q }] *)
Definition withQuantity (extra : Extra num) (q : Z) : Extra num :=
  mkExtra (extra_id extra) (extra_name extra) (extra_value extra) q.

(** [{ ...f, formattedPrice: s }] *)
Definition withFormattedPrice (f : Food num) (s : string) : Food num :=
  mkFood (food_id f) (food_name f) (food_description f) (food_price f)
         (food_image_url f) (Some s) (food_extras f).

(** [delete f.formattedPrice] *)
Definition deleteFormattedPrice (f : Food num) : Food num :=
  mkFood (food_id f) (food_name f) (food_description f) (food_price f)
         (food_image_url f) None (food_extras f).

(** [delete f.extras] *)
Definition deleteExtras (f : Food num) : Food num :=
  mkFood (food_id f) (food_name f) (food_description f) (food_price f)
         (food_image_url f) (food_formattedPrice f) None.

(** The state setters.  [mutateFood] is not a setter of the source: it is the
    effect of changing the object held in the [food] cell in place. *)
Definition setFood (f : Food num) (st : State num) : State num :=
  mkState f (extras st) (isFavorite st) (foodQuantity st).

Definition setExtras (l : list (Extra num)) (st : State num) : State num :=
  mkState (food st) l (isFavorite st) (foodQuantity st).

Definition setIsFavorite (b : bool) (st : State num) : State num :=
  mkState (food st) (extras st) b (foodQuantity st).

Definition setFoodQuantity (q : Z) (st : State num) : State num :=
  mkState (food st) (extras st) (isFavorite st) q.

Definition mutateFood (f : Food num) (st : State num) : State num :=
  mkState f (extras st) (isFavorite st) (foodQuantity st).

(** *** Initial state

    [useState({} as Food)], [useState<Extra[]>([])], [useState(false)],
    [useState(1)]. *)
Definition emptyFood : Food num :=
  mkFood None None None None None None None.

Definition initialState : State num :=
  mkState emptyFood [] false 1.

(** *** Loader ([loadFood], run by the mount effect)

    [response] is the body of [GET /foods/:id] and [favorites] the body of
    [GET favorites].  When the response carries no [extras] the call
    [formattedFood.extras.map] throws after [setFood]: the promise rejects and
    the rest of the function does not run. *)
Definition loadFood (routeId : Z) (response : Food num)
    (favorites : list (Food num)) (st : State num) : State num :=
  let formattedFood :=
    withFormattedPrice response (formatValue (food_price response)) in
  let st1 := setFood formattedFood st in
  match food_extras formattedFood with
  | None => st1
  | Some responseExtras =>
      let formattedExtras :=
        map (fun extra => withQuantity extra 0) responseExtras in
      let st2 := setExtras formattedExtras st1 in
      let favFound :=
        findIndex (fun favId =>
                     match food_id favId with
                     | Some i => i =? routeId
                     | None => false
                     end) favorites in
      if negb (favFound =? -1) then setIsFavorite true st2 else st2
  end.

(** *** Quantity handlers *)

Definition handleIncrementExtra (id : Z) (st : State num) : State num :=
  let extrasIncremented :=
    map (fun extra =>
           if extra_id extra =? id
           then withQuantity extra (extra_quantity extra + 1)
           else extra) (extras st) in
  setExtras extrasIncremented st.

Definition handleDecrementExtra (id : Z) (st : State num) : State num :=
  let newExtra :=
    map (fun extra =>
           if (extra_id extra =? id) && (0 <? extra_quantity extra)
           then withQuantity extra (extra_quantity extra - 1)
           else extra) (extras st) in
  setExtras newExtra st.

Definition handleIncrementFood (st : State num) : State num :=
  setFoodQuantity (foodQuantity st + 1) st.

Definition handleDecrementFood (st : State num) : State num :=
  if foodQuantity st =? 1 then st
  else setFoodQuantity (foodQuantity st - 1) st.

(** *** Favorite toggle

    [const favFood = food] binds the object held in the [food] cell, it does
    not copy it: the two [delete]s change that object, so the cell holds the
    shortened record afterwards, and the request body is the same record. *)
Definition toggleFavorite (st : State num) : State num * Request num :=
  let favFood := deleteFormattedPrice (deleteExtras (food st)) in
  let st1 := mutateFood favFood st in
  if negb (isFavorite st)
  then (setIsFavorite true st1, PostFavorites favFood)
  else (setIsFavorite false st1, DeleteFavorite (food_id favFood)).

(** *** Total derivation ([cartTotal]) *)

(** [extras.reduce((accumulator, extra) => accumulator + extra.value *
    extra.quantity, 0.0)] *)
Definition totalExtras (l : list (Extra num)) : num :=
  fold_left
    (fun accumulator extra =>
       let extrasSubtotal :=
         mul (extra_value extra) (ofZ (extra_quantity extra)) in
       add accumulator extrasSubtotal)
    l zero.

(** The local [total] of [cartTotal]. *)
Definition total (st : State num) : num :=
  let parsedTotalExtras := parseFloat (Some (totalExtras (extras st))) in
  let parsedFoodPrice := parseFloat (food_price (food st)) in
  mul (add parsedTotalExtras parsedFoodPrice) (ofZ (foodQuantity st)).

Definition cartTotal (st : State num) : string :=
  formatValue (Some (total st)).

(** *** Order submission

    As in [toggleFavorite], [const orderCompleted = food] is the object of the
    [food] cell, and [delete] changes it in place. *)
Definition handleFinishOrder (st : State num) : State num * list (Request num) :=
  let orderCompleted := deleteFormattedPrice (food st) in
  let st1 := mutateFood orderCompleted st in
  (st1, [PostOrders orderCompleted; GoBack]).

(** The body of the [POST orders] request. *)
Definition orderPayload (st : State num) : Food num :=
  match snd (handleFinishOrder st) with
  | PostOrders body :: _ => body
  | _ => emptyFood
  end.

(** *** The screen as a transition system *)

Inductive Event : Type :=
| Load (routeId : Z) (response : Food num) (favorites : list (Food num))
| IncrementExtra (id : Z)
| DecrementExtra (id : Z)
| IncrementFood
| DecrementFood
| ToggleFavorite
| FinishOrder.

Definition step (st : State num) (ev : Event) : State num :=
  match ev with
  | Load routeId response favorites => loadFood routeId response favorites st
  | IncrementExtra id => handleIncrementExtra id st
  | DecrementExtra id => handleDecrementExtra id st
  | IncrementFood => handleIncrementFood st
  | DecrementFood => handleDecrementFood st
  | ToggleFavorite => fst (toggleFavorite st)
  | FinishOrder => fst (handleFinishOrder st)
  end.

(** The state after a sequence of events, oldest first. *)
Definition run (st : State num) (evs : list Event) : State num :=
  fold_left step evs st.

Inductive reachable : State num -> Prop :=
| reachable_init : reachable initialState
| reachable_step st ev : reachable st -> reachable (step st ev).

End Component.

(** ** The number instance *)

(** IEEE-754 binary64, the numbers the program runs on.  A counter is read as
    the nearest double.  [Number.parseFloat(`${x}`)] returns [x] again (the
    printed digits identify the double), with two exceptions: [undefined]
    prints as "undefined", which parses to [NaN], and [-0] prints as "0". *)
Definition float_of_Z (z : Z) : float :=
  SF2Prim (binary_normalize prec emax z 0 false).

Definition float_parseFloat (x : option float) : float :=
  match x with
  | None => nan
  | Some f => if PrimFloat.eqb f 0%float then 0%float else f
  end.

#[export] Instance float_JsNumber : JsNumber float := {
  zero := 0%float;
  add := PrimFloat.add;
  mul := PrimFloat.mul;
  ofZ := float_of_Z;
  parseFloat := float_parseFloat
}.

(** ** Sample data

    The scenario of the specification: an item at 10.00 with two extras at
    2.00 and 1.50, loaded by identifier 5 while the favorites hold item 5. *)

Definition sampleFormat : option float -> string :=
  fun x => match x with Some _ => "R$"%string | None => "NaN"%string end.

Definition bacon : Extra float := mkExtra 1 "Bacon" 2%float 0.
Definition cheese : Extra float := mkExtra 2 "Queijo" 1.5%float 0.

Definition sampleResponse : Food float :=
  mkFood (Some 5) (Some "Ao molho"%string) (Some "Macarrao ao molho"%string)
         (Some 10%float) (Some "https://example.org/ao_molho.png"%string)
         None (Some [bacon; cheese]).

Definition sampleFavorites : list (Food float) :=
  [deleteExtras sampleResponse].

Definition loadedState : State float :=
  loadFood sampleFormat 5 sampleResponse sampleFavorites initialState.

(** Two sessions on the same item (5.20, extras at 0.10, 0.20 and 0.30), whose
    extras the API lists in opposite orders; each extra is taken once. *)
Set Warnings "-inexact-float".

Definition sauce : Extra float := mkExtra 1 "Molho" 0.1%float 0.
Definition onion : Extra float := mkExtra 2 "Cebola" 0.2%float 0.
Definition olives : Extra float := mkExtra 3 "Azeitona" 0.3%float 0.

Definition pizzaResponse (l : list (Extra float)) : Food float :=
  mkFood (Some 7) (Some "Pizza"%string) (Some "Pizza de mussarela"%string)
         (Some 5.2%float) (Some "https://example.org/pizza.png"%string)
         None (Some l).

Set Warnings "inexact-float".

Definition takeEachOnce : list (@Event float) :=
  [IncrementExtra 1; IncrementExtra 2; IncrementExtra 3].

Definition orderAscending : State float :=
  run sampleFormat initialState
      (Load 7 (pizzaResponse [sauce; onion; olives]) [] :: takeEachOnce).

Definition orderDescending : State float :=
  run sampleFormat initialState
      (Load 7 (pizzaResponse [olives; onion; sauce]) [] :: takeEachOnce).

(** The same item with two extras only, each taken once, in both orders. *)
Definition pairAscending : State float :=
  run sampleFormat initialState
      [Load 7 (pizzaResponse [sauce; onion]) [];
       IncrementExtra 1; IncrementExtra 2].

Definition pairDescending : State float :=
  run sampleFormat initialState
      [Load 7 (pizzaResponse [onion; sauce]) [];
       IncrementExtra 1; IncrementExtra 2].

(** Extras are kept non-negative, the item quantity at least one. *)
Definition nonNegativeExtras {num : Type} (st : State num) : Prop :=
  Forall (fun extra => 0 <= extra_quantity extra) (extras st).

(** ** The header icon and the rendered view

    [favoriteIconName] and the tree the component returns, reduced to what it
    shows and to the handler each pressable element calls (an [Event] of the
    transition system).  A text node whose value is [undefined] shows
    nothing: it is [None] here. *)

Section Screen.

Context {num : Type} {N : JsNumber num}.
Variable formatValue : option num -> string.

Definition favoriteIconName (st : State num) : string :=
  if isFavorite st then "favorite"%string else "favorite-border"%string.

(** One [AdittionalItem]: its React key, its texts and the [onPress] of its
    minus and plus icons. *)
Record ExtraRow : Type := mkExtraRow {
  row_key : Z;
  row_name : string;
  row_quantity : Z;
  row_minus : @Event num;
  row_plus : @Event num
}.

Record View : Type := mkView {
  view_headerIcon : string;
  view_headerPress : @Event num;
  view_imageUri : option string;
  view_foodTitle : option string;
  view_foodDescription : option string;
  view_foodPricing : option string;
  view_additionals : list ExtraRow;
  view_totalPrice : string;
  view_foodQuantity : Z;
  view_minus : @Event num;
  view_plus : @Event num;
  view_finish : @Event num
}.

Definition renderExtra (extra : Extra num) : ExtraRow :=
  mkExtraRow (extra_id extra) (extra_name extra) (extra_quantity extra)
             (DecrementExtra (extra_id extra))
             (IncrementExtra (extra_id extra)).

Definition render (st : State num) : View :=
  mkView (favoriteIconName st) ToggleFavorite
         (food_image_url (food st)) (food_name (food st))
         (food_description (food st)) (food_formattedPrice (food st))
         (map renderExtra (extras st))
         (cartTotal formatValue st) (foodQuantity st)
         DecrementFood IncrementFood FinishOrder.

(** Whether handling [ev] in state [st] calls a state setter with a new
    value, which makes React run the component again and show its result.
    [handleFinishOrder] calls no setter, and [handleDecrementFood] returns
    before its setter at quantity 1. *)
Definition rerenders (st : State num) (ev : @Event num) : bool :=
  match ev with
  | FinishOrder => false
  | DecrementFood => negb (foodQuantity st =? 1)
  | _ => true
  end.

(** The state and what is on screen, before and after one event: the screen
    changes only when the component runs again. *)
Definition present (sv : State num * View) (ev : @Event num)
  : State num * View :=
  let st' := step formatValue (fst sv) ev in
  (st', if rerenders (fst sv) ev then render st' else snd sv).


(** Event sequences during which the loader does not run. *)
Definition isLoad (ev : @Event num) : bool :=
  match ev with
  | Load _ _ _ => true
  | _ => false
  end.

Definition loadFree (evs : list (@Event num)) : bool :=
  forallb (fun ev => negb (isLoad ev)) evs.

(** The properties of the item that no handler deletes. *)
Definition coreFields (f : Food num)
  : option Z * option string * option string * option num * option string :=
  (food_id f, food_name f, food_description f, food_price f, food_image_url f).

(** The predicate of [findIndex] in [loadFood]: [favId.id === routeParams.id]. *)
Definition isRouteFood (routeId : Z) (favId : Food num) : bool :=
  match food_id favId with
  | Some i => i =? routeId
  | None => false
  end.

End Screen.

(** A double that is neither an infinity nor NaN ([Number.isFinite]). *)
Definition isFiniteNumber (x : float) : bool :=
  match Prim2SF x with
  | S754_zero _ | S754_finite _ _ _ => true
  | _ => false
  end.

(** The double [-0], the one number that printing and parsing does not
    return ([`${-0}`] is "0"). *)
Definition isNegativeZero (x : float) : bool :=
  match Prim2SF x with
  | S754_zero true => true
  | _ => false
  end.

(** An extra the user has taken: its quantity is not 0. *)
Definition isTaken {num : Type} (extra : Extra num) : bool :=
  negb (extra_quantity extra =? 0).

(** ** Properties of the handlers *)

Section ComponentProperties.

Context {num : Type} {N : JsNumber num}.
Variable formatValue : option num -> string.

Implicit Types (st : State num) (extra : Extra num) (id : Z).

(** The loader and the two terminal actions do not touch the counters. *)
Lemma loadFood_foodQuantity routeId response favorites st :
  foodQuantity (loadFood formatValue routeId response favorites st)
  = foodQuantity st.
Proof.
  unfold loadFood; cbn.
  destruct (food_extras response); [|reflexivity].
  destruct (negb _); reflexivity.
Qed.

Lemma step_foodQuantity st ev :
  1 <= foodQuantity st -> 1 <= foodQuantity (step formatValue st ev).
Proof.
  intros H. destruct ev; cbn.
  - now rewrite loadFood_foodQuantity.
  - exact H.
  - exact H.
  - lia.
  - unfold handleDecrementFood.
    destruct (Z.eqb_spec (foodQuantity st) 1); cbn; lia.
  - unfold toggleFavorite. destruct (negb (isFavorite st)); exact H.
  - exact H.
Qed.

(** C2: the item quantity is at least 1 in every reachable state; both
    quantity handlers keep it at least 1; decrementing at 1 changes
    nothing. *)
Theorem foodQuantity_at_least_one :
  (forall st, reachable formatValue st -> 1 <= foodQuantity st) /\
  (forall st, 1 <= foodQuantity st ->
     1 <= foodQuantity (handleIncrementFood st) /\
     1 <= foodQuantity (handleDecrementFood st)) /\
  (forall st, foodQuantity st = 1 -> handleDecrementFood st = st).
Proof.
  split; [|split].
  - induction 1 as [|st ev _ IH].
    + cbn. lia.
    + now apply step_foodQuantity.
  - intros st H. split.
    + apply (step_foodQuantity st IncrementFood H).
    + apply (step_foodQuantity st DecrementFood H).
  - intros st H. unfold handleDecrementFood.
    now rewrite H.
Qed.

Lemma loadFood_nonNegativeExtras routeId response favorites st :
  nonNegativeExtras st ->
  nonNegativeExtras (loadFood formatValue routeId response favorites st).
Proof.
  intros H. unfold loadFood, nonNegativeExtras; cbn.
  destruct (food_extras response) as [l|]; [|exact H].
  assert (Forall (fun extra => 0 <= extra_quantity extra)
                 (map (fun extra => withQuantity extra 0) l)) as Hl.
  { apply Forall_forall. intros x Hx.
    apply in_map_iff in Hx as (y & <- & _). cbn. lia. }
  destruct (negb _); exact Hl.
Qed.

Lemma step_nonNegativeExtras st ev :
  nonNegativeExtras st -> nonNegativeExtras (step formatValue st ev).
Proof.
  intros H. destruct ev; cbn.
  - now apply loadFood_nonNegativeExtras.
  - unfold nonNegativeExtras in *; cbn.
    rewrite Forall_forall in *. intros x Hx.
    apply in_map_iff in Hx as (y & <- & Hy). specialize (H y Hy).
    destruct (extra_id y =? id); cbn; lia.
  - unfold nonNegativeExtras in *; cbn.
    rewrite Forall_forall in *. intros x Hx.
    apply in_map_iff in Hx as (y & <- & Hy). specialize (H y Hy).
    destruct (extra_id y =? id); cbn; [|exact H].
    destruct (Z.ltb_spec 0 (extra_quantity y)); cbn; lia.
  - exact H.
  - unfold handleDecrementFood. destruct (foodQuantity st =? 1); exact H.
  - unfold toggleFavorite. destruct (negb (isFavorite st)); exact H.
  - exact H.
Qed.

(** C3: every extra's quantity is at least 0 in every reachable state; every
    event keeps it so; [handleDecrementExtra], whatever the identifier, leaves
    an extra whose quantity is 0 as it is. *)
Theorem extra_quantity_never_negative :
  (forall st, reachable formatValue st -> nonNegativeExtras st) /\
  (forall st ev, nonNegativeExtras st ->
     nonNegativeExtras (step formatValue st ev)) /\
  (forall st id i extra,
     nth_error (extras st) i = Some extra ->
     extra_quantity extra = 0 ->
     nth_error (extras (handleDecrementExtra id st)) i = Some extra).
Proof.
  split; [|split].
  - induction 1 as [|st ev _ IH].
    + constructor.
    + now apply step_nonNegativeExtras.
  - exact step_nonNegativeExtras.
  - intros st id i extra Hi Hq. cbn.
    rewrite nth_error_map, Hi. cbn.
    rewrite Hq, andb_false_r. reflexivity.
Qed.

Lemma map_unchanged (f : Extra num -> Extra num) (l : list (Extra num)) :
  (forall x, In x l -> f x = x) -> map f l = l.
Proof.
  intros H. induction l as [|x l IH]; cbn; [reflexivity|].
  rewrite H by now left.
  rewrite IH; [reflexivity|]. intros y Hy. apply H. now right.
Qed.

(** C4: when no extra carries the identifier, both extra handlers return the
    state they were given, extras sequence included. *)
Theorem extra_handlers_unknown_id id st :
  (forall extra, In extra (extras st) -> extra_id extra <> id) ->
  handleIncrementExtra id st = st /\ handleDecrementExtra id st = st.
Proof.
  intros H. destruct st as [f l fav q]. cbn in H.
  unfold handleIncrementExtra, handleDecrementExtra, setExtras; cbn.
  split; f_equal; apply map_unchanged; intros x Hx;
    destruct (Z.eqb_spec (extra_id x) id) as [E|_]; try reflexivity;
    now apply H in Hx.
Qed.

(** C5: [handleIncrementExtra] keeps the length and the positions of the
    sequence; at each position the extra keeps its identifier, name and
    value; its quantity grows by 1 when its identifier is the given one, and
    the whole extra is unchanged otherwise; the other state cells are
    untouched. *)
Theorem handleIncrementExtra_spec id st :
  List.length (extras (handleIncrementExtra id st)) = List.length (extras st) /\
  (forall i extra,
     nth_error (extras st) i = Some extra ->
     exists extra',
       nth_error (extras (handleIncrementExtra id st)) i = Some extra' /\
       extra_id extra' = extra_id extra /\
       extra_name extra' = extra_name extra /\
       extra_value extra' = extra_value extra /\
       (extra_id extra = id ->
          extra_quantity extra' = extra_quantity extra + 1) /\
       (extra_id extra <> id -> extra' = extra)) /\
  food (handleIncrementExtra id st) = food st /\
  isFavorite (handleIncrementExtra id st) = isFavorite st /\
  foodQuantity (handleIncrementExtra id st) = foodQuantity st.
Proof.
  repeat split.
  - cbn. apply length_map.
  - intros i extra Hi. cbn. rewrite nth_error_map, Hi. cbn.
    destruct (Z.eqb_spec (extra_id extra) id) as [E|E].
    + eexists. split; [reflexivity|]. cbn. repeat split; congruence.
    + exists extra. repeat split; congruence.
Qed.

End ComponentProperties.

(** ** Favorite flag, loader and order submission *)

Section FavoriteAndOrder.

Context {num : Type} {N : JsNumber num}.
Variable formatValue : option num -> string.

Implicit Types (st : State num) (f fav : Food num).

(** [findIndex] answers [-1] or a position. *)
Lemma findIndex_lower_bound {A : Type} (p : A -> bool) (l : list A) :
  -1 <= findIndex p l.
Proof.
  induction l as [|x l IH]; cbn; [lia|].
  destruct (p x); [lia|].
  destruct (Z.eqb_spec (findIndex p l) (-1)); lia.
Qed.

Lemma findIndex_found {A : Type} (p : A -> bool) (l : list A) :
  findIndex p l <> -1 <-> exists x, In x l /\ p x = true.
Proof.
  induction l as [|x l IH]; cbn.
  - split; [congruence|]. intros (x & [] & _).
  - destruct (p x) eqn:Hp.
    + split; [|lia]. intros _. exists x. auto.
    + pose proof (findIndex_lower_bound p l) as Hlow.
      destruct (Z.eqb_spec (findIndex p l) (-1)) as [E|E].
      * split; [congruence|]. intros (y & [<-|Hy] & Hpy); [congruence|].
        exfalso. apply (proj2 IH); [eauto|exact E].
      * split; [|lia]. intros _.
        destruct (proj1 IH E) as (y & Hy & Hpy). eauto.
Qed.

(** C6, what the order body holds: the [POST orders] body is the record of
    the [food] cell without [formattedPrice]; every other property, the item's own [extras]
    property included, is the one of the cell; the [extras] cell and the
    [foodQuantity] cell have no part in it. *)
Theorem orderPayload_spec st :
  snd (handleFinishOrder st) = [PostOrders (orderPayload st); GoBack] /\
  orderPayload st = deleteFormattedPrice (food st) /\
  food_formattedPrice (orderPayload st) = None /\
  food_id (orderPayload st) = food_id (food st) /\
  food_name (orderPayload st) = food_name (food st) /\
  food_description (orderPayload st) = food_description (food st) /\
  food_price (orderPayload st) = food_price (food st) /\
  food_image_url (orderPayload st) = food_image_url (food st) /\
  food_extras (orderPayload st) = food_extras (food st) /\
  (forall l q, orderPayload (setFoodQuantity q (setExtras l st))
               = orderPayload st).
Proof.
  repeat split.
Qed.

(** C8: from NOT_FAVORITE one toggle gives FAVORITE (with a [POST favorites])
    and a second one gives NOT_FAVORITE again (with a [DELETE]); in general
    two toggles restore the flag. *)
Theorem toggleFavorite_twice st :
  isFavorite st = false ->
  isFavorite (fst (toggleFavorite st)) = true /\
  (exists body, snd (toggleFavorite st) = PostFavorites body) /\
  isFavorite (fst (toggleFavorite (fst (toggleFavorite st)))) = false /\
  (exists id, snd (toggleFavorite (fst (toggleFavorite st)))
              = DeleteFavorite id).
Proof.
  intros H. unfold toggleFavorite at 1 2 4 6. rewrite H. cbn.
  repeat split; eauto.
Qed.

Lemma toggleFavorite_flag st :
  isFavorite (fst (toggleFavorite st)) = negb (isFavorite st).
Proof.
  unfold toggleFavorite. now destruct (isFavorite st).
Qed.

Lemma toggleFavorite_involutive_flag st :
  isFavorite (fst (toggleFavorite (fst (toggleFavorite st)))) = isFavorite st.
Proof.
  rewrite !toggleFavorite_flag. apply negb_involutive.
Qed.

(** C9, what the loader does to the flag: when the response carries its
    extras and the identifier asked for, the flag after the load is [true]
    exactly when it was [true] before or some entry of the favorites list
    carries the loaded item's identifier; so from a flag that is [false], as
    in the initial state, it is [true] exactly when the identifier is in the
    list. *)
Theorem loadFood_favorite_iff routeId response favorites responseExtras st :
  food_extras response = Some responseExtras ->
  food_id response = Some routeId ->
  (isFavorite (loadFood formatValue routeId response favorites st) = true
   <-> isFavorite st = true \/
       exists fav,
         In fav favorites /\
         food_id fav
         = food_id (food (loadFood formatValue routeId response favorites
                                   st))) /\
  (isFavorite st = false ->
   (isFavorite (loadFood formatValue routeId response favorites st) = true
    <-> exists fav,
          In fav favorites /\
          food_id fav
          = food_id (food (loadFood formatValue routeId response favorites
                                    st)))).
Proof.
  intros Hx Hid.
  set (p := fun favId : Food num =>
              match food_id favId with
              | Some i => i =? routeId
              | None => false
              end).
  assert (food_id (food (loadFood formatValue routeId response favorites st))
          = Some routeId) as Hloaded.
  { unfold loadFood. cbn. rewrite Hx. destruct (negb _); exact Hid. }
  assert ((exists x, In x favorites /\ p x = true)
          <-> exists fav, In fav favorites /\ food_id fav = Some routeId)
    as Hp.
  { split; intros (fav & Hin & H); exists fav; (split; [exact Hin|]);
      unfold p in *.
    - destruct (food_id fav) as [i|]; [|discriminate].
      apply Z.eqb_eq in H. now subst.
    - rewrite H. apply Z.eqb_refl. }
  assert (isFavorite (loadFood formatValue routeId response favorites st)
          = true
          <-> isFavorite st = true \/
              exists fav, In fav favorites /\ food_id fav = Some routeId)
    as Hiff.
  { rewrite <- Hp, <- findIndex_found. unfold loadFood. cbn. rewrite Hx.
    fold p.
    destruct (Z.eqb_spec (findIndex p favorites) (-1)) as [E|E]; cbn.
    - split; [now left|]. intros [H|H]; [exact H|contradiction].
    - split; [now right|reflexivity]. }
  rewrite Hloaded. split; [exact Hiff|].
  intros Hfalse. rewrite Hiff, Hfalse.
  split; [intros [H|H]; [discriminate H|exact H]|now right].
Qed.

End FavoriteAndOrder.

(** ** The total in binary64 *)

Lemma float_add_nan_r (x : float) : PrimFloat.add x nan = nan.
Proof.
  apply Prim2SF_inj. rewrite add_spec.
  change (Prim2SF nan) with S754_nan.
  unfold SF64add, SFadd. now destruct (Prim2SF x).
Qed.

Lemma float_mul_nan_l (y : float) : PrimFloat.mul nan y = nan.
Proof.
  apply Prim2SF_inj. rewrite mul_spec.
  change (Prim2SF nan) with S754_nan.
  reflexivity.
Qed.

(** C10: while the item is not loaded (the record of the [food] cell has no
    [price]) the total is NaN, whatever the extras and the item quantity, and
    NaN is what the currency formatter receives. *)
Theorem total_unloaded_is_nan (formatValue : option float -> string)
    (st : State float) :
  food_price (food st) = None ->
  total st = nan /\
  PrimFloat.is_nan (total st) = true /\
  cartTotal formatValue st = formatValue (Some nan).
Proof.
  intros Hp.
  assert (total st = nan) as Hnan.
  { unfold total. cbn zeta. rewrite Hp. cbn [parseFloat float_JsNumber add mul].
    cbn [float_parseFloat]. now rewrite float_add_nan_r, float_mul_nan_l. }
  unfold cartTotal. rewrite Hnan. repeat split.
Qed.

(** ** The model on the sample data *)

Lemma reachable_run {num : Type} {N : JsNumber num}
    (formatValue : option num -> string) (evs : list (@Event num))
    (st : State num) :
  reachable formatValue st -> reachable formatValue (run formatValue st evs).
Proof.
  revert st. induction evs as [|ev evs IH]; intros st H; cbn.
  - exact H.
  - apply IH. now constructor.
Qed.

Lemma loadedState_reachable : reachable sampleFormat loadedState.
Proof.
  exact (reachable_step (Load 5 sampleResponse sampleFavorites)
                        (reachable_init sampleFormat)).
Qed.

Set Warnings "-inexact-float".

(** The specification's scenario in binary64: 10.00 alone, then the first
    extra twice and three items. *)
Example total_scenario :
  total loadedState = 10%float /\
  total (run sampleFormat loadedState
             [IncrementExtra 1; IncrementExtra 1; IncrementFood;
              IncrementFood]) = 42%float.
Proof. split; reflexivity. Qed.

Example total_orderAscending :
  total orderAscending = 5.8000000000000007%float.
Proof. reflexivity. Qed.

Example total_orderDescending :
  total orderDescending = 5.7999999999999998%float.
Proof. reflexivity. Qed.

Set Warnings "inexact-float".

(** C1, as stated, fails in binary64: the two sessions hold the same extras
    with the same quantities, the same price and the same item quantity, in
    opposite orders, and their totals differ. *)
Lemma total_depends_on_extras_order :
  Permutation (extras orderAscending) (extras orderDescending) /\
  food_price (food orderAscending) = food_price (food orderDescending) /\
  foodQuantity orderAscending = foodQuantity orderDescending /\
  1 <= foodQuantity orderAscending /\
  total orderAscending <> total orderDescending.
Proof.
  split; [|split; [|split; [|split]]].
  - change (extras orderDescending) with (rev (extras orderAscending)).
    apply Permutation_rev.
  - reflexivity.
  - reflexivity.
  - cbn. lia.
  - intros H. apply (f_equal Prim2SF) in H. vm_compute in H. discriminate H.
Qed.

Lemma foodQuantity_at_least_one_witness :
  1 <= foodQuantity (run sampleFormat loadedState
                         [IncrementFood; DecrementFood; DecrementFood]) /\
  handleDecrementFood loadedState = loadedState.
Proof.
  split.
  - apply (proj1 (foodQuantity_at_least_one sampleFormat)).
    apply reachable_run, loadedState_reachable.
  - apply (proj2 (proj2 (foodQuantity_at_least_one sampleFormat))).
    reflexivity.
Defined.

Lemma extra_quantity_never_negative_witness :
  nonNegativeExtras (run sampleFormat loadedState
                         [IncrementExtra 1; DecrementExtra 1;
                          DecrementExtra 1]) /\
  nth_error (extras (handleDecrementExtra 1 loadedState)) 0
  = Some (withQuantity bacon 0).
Proof.
  split.
  - apply (proj1 (extra_quantity_never_negative sampleFormat)).
    apply reachable_run, loadedState_reachable.
  - apply (proj2 (proj2 (extra_quantity_never_negative sampleFormat)));
      reflexivity.
Defined.

Lemma extra_handlers_unknown_id_witness :
  handleIncrementExtra 9 loadedState = loadedState /\
  handleDecrementExtra 9 loadedState = loadedState.
Proof.
  apply extra_handlers_unknown_id.
  intros extra [<-|[<-|[]]]; cbn; discriminate.
Defined.

(** C6, as stated, fails: right after the load the order body carries an
    [extras] property, and it is the extras sequence of the screen, quantities
    included. *)
Lemma orderPayload_carries_extras :
  reachable sampleFormat loadedState /\
  food_extras (orderPayload loadedState) = Some (extras loadedState) /\
  food_extras (orderPayload loadedState) <> None.
Proof.
  split; [exact loadedState_reachable|].
  split; [reflexivity|discriminate].
Qed.

(** C7: the handlers change the loaded record.  On the loaded sample the
    [food] cell holds a formatted price and the extras; after one favorite
    toggle both properties are gone from the cell, and after an order
    submission the formatted price is gone. *)
Lemma loaded_food_is_mutated :
  reachable sampleFormat loadedState /\
  food_formattedPrice (food loadedState) = Some "R$"%string /\
  food_extras (food loadedState) = Some [bacon; cheese] /\
  food_formattedPrice (food (fst (toggleFavorite loadedState))) = None /\
  food_extras (food (fst (toggleFavorite loadedState))) = None /\
  food_formattedPrice (food (fst (handleFinishOrder loadedState))) = None /\
  food (fst (toggleFavorite loadedState)) <> food loadedState /\
  food (fst (handleFinishOrder loadedState)) <> food loadedState.
Proof.
  split; [exact loadedState_reachable|].
  repeat split; try reflexivity; intros H;
    apply (f_equal (@food_formattedPrice float)) in H; discriminate H.
Qed.

Lemma toggleFavorite_twice_witness :
  isFavorite (fst (toggleFavorite (@initialState float))) = true /\
  isFavorite (fst (toggleFavorite (fst (toggleFavorite (@initialState float)))))
  = false.
Proof.
  destruct (@toggleFavorite_twice float initialState eq_refl)
    as (H1 & _ & H2 & _).
  split; [exact H1|exact H2].
Defined.

Lemma loadFood_favorite_iff_witness :
  isFavorite (loadFood sampleFormat 5 sampleResponse sampleFavorites
                       initialState) = true.
Proof.
  apply (proj2 (@loadFood_favorite_iff float sampleFormat 5 sampleResponse
                  sampleFavorites [bacon; cheese] initialState
                  eq_refl eq_refl) eq_refl).
  exists (deleteExtras sampleResponse). split; [now left|reflexivity].
Defined.

(** C9, as stated, fails on a second load: the screen that holds item 5, a
    favorite, loads item 7 while the favorites list holds item 5 only; the
    flag is still [true] and no entry of the list carries identifier 7. *)
Lemma loadFood_keeps_stale_favorite :
  reachable sampleFormat
    (loadFood sampleFormat 7 (pizzaResponse [sauce]) sampleFavorites
              loadedState) /\
  food_id (food (loadFood sampleFormat 7 (pizzaResponse [sauce])
                          sampleFavorites loadedState)) = Some 7 /\
  isFavorite (loadFood sampleFormat 7 (pizzaResponse [sauce]) sampleFavorites
                       loadedState) = true /\
  ~ (exists fav, In fav sampleFavorites /\ food_id fav = Some 7).
Proof.
  split.
  { exact (reachable_step (Load 7 (pizzaResponse [sauce]) sampleFavorites)
                          loadedState_reachable). }
  split; [reflexivity|]. split; [reflexivity|].
  intros (fav & [<-|[]] & H). discriminate H.
Qed.

Lemma total_unloaded_is_nan_witness :
  total (@initialState float) = nan /\
  cartTotal sampleFormat initialState = "R$"%string.
Proof.
  destruct (@total_unloaded_is_nan sampleFormat initialState eq_refl)
    as (H1 & _ & H2).
  split; [exact H1|exact H2].
Defined.

(** ** More on the quantity handlers *)

Section QuantityHandlers.

Context {num : Type} {N : JsNumber num}.
Variable formatValue : option num -> string.

Implicit Types (st : State num) (extra : Extra num) (id : Z).

Lemma withQuantity_same extra : withQuantity extra (extra_quantity extra) = extra.
Proof. now destruct extra. Qed.

Lemma setExtras_same st : setExtras (extras st) st = st.
Proof. now destruct st. Qed.

(** X1: [handleDecrementExtra] keeps the length and the positions of the
    sequence; an extra with the given identifier and a quantity above 0 loses
    one unit and keeps its identifier, name and value; every other extra is
    unchanged; the other state cells are untouched. *)
Theorem handleDecrementExtra_spec id st :
  List.length (extras (handleDecrementExtra id st)) = List.length (extras st) /\
  (forall i extra,
     nth_error (extras st) i = Some extra ->
     nth_error (extras (handleDecrementExtra id st)) i
     = Some (if (extra_id extra =? id) && (0 <? extra_quantity extra)
             then mkExtra (extra_id extra) (extra_name extra)
                          (extra_value extra) (extra_quantity extra - 1)
             else extra)) /\
  (forall extra',
     In extra' (extras (handleDecrementExtra id st)) ->
     exists extra,
       In extra (extras st) /\
       extra_quantity extra - 1 <= extra_quantity extra'
                                <= extra_quantity extra) /\
  food (handleDecrementExtra id st) = food st /\
  isFavorite (handleDecrementExtra id st) = isFavorite st /\
  foodQuantity (handleDecrementExtra id st) = foodQuantity st.
Proof.
  split; [cbn; apply length_map|].
  split; [|split; [|repeat split]].
  - intros i extra Hi. cbn. rewrite nth_error_map, Hi. reflexivity.
  - intros extra' Hin. cbn in Hin.
    apply in_map_iff in Hin as (extra & <- & Hin).
    exists extra. split; [exact Hin|].
    destruct ((extra_id extra =? id) && (0 <? extra_quantity extra)); cbn; lia.
Qed.

(** X2: on non-negative quantities a plus followed by a minus on the same
    identifier gives the state back. *)
Theorem increment_then_decrement_extra id st :
  nonNegativeExtras st ->
  handleDecrementExtra id (handleIncrementExtra id st) = st.
Proof.
  intros H. unfold handleDecrementExtra, handleIncrementExtra.
  destruct st as [f l fav q]. unfold setExtras; cbn in *. f_equal.
  rewrite map_map. apply map_unchanged. intros x Hx.
  unfold nonNegativeExtras in H; cbn in H.
  rewrite Forall_forall in H. specialize (H x Hx).
  destruct (Z.eqb_spec (extra_id x) id) as [E|E]; cbn.
  - rewrite (proj2 (Z.eqb_eq _ _) E). cbn.
    destruct (Z.ltb_spec 0 (extra_quantity x + 1)) as [_|Hlt]; [|lia].
    unfold withQuantity; cbn. destruct x as [i n v qx]; cbn.
    f_equal. lia.
  - now rewrite (proj2 (Z.eqb_neq _ _) E).
Qed.

(** X3: a minus followed by a plus is not the inverse passage: an extra with
    the identifier that stood at 0 ends at 1, one above 0 gets its quantity
    back, the others are unchanged. *)
Theorem decrement_then_increment_extra id st i extra :
  nth_error (extras st) i = Some extra ->
  nth_error (extras (handleIncrementExtra id (handleDecrementExtra id st))) i
  = Some (if extra_id extra =? id
          then withQuantity extra
                 (if 0 <? extra_quantity extra then extra_quantity extra
                  else extra_quantity extra + 1)
          else extra).
Proof.
  intros Hi. cbn. rewrite map_map, nth_error_map, Hi. cbn. f_equal.
  destruct (extra_id extra =? id) eqn:E; cbn.
  - destruct (0 <? extra_quantity extra); cbn; rewrite E.
    + unfold withQuantity; cbn. f_equal. lia.
    + reflexivity.
  - now rewrite E.
Qed.

(** X4: the extra handlers on two different identifiers commute, in every
    combination of plus and minus. *)
Theorem extra_handlers_commute id id' st :
  id <> id' ->
  handleIncrementExtra id (handleIncrementExtra id' st)
  = handleIncrementExtra id' (handleIncrementExtra id st) /\
  handleIncrementExtra id (handleDecrementExtra id' st)
  = handleDecrementExtra id' (handleIncrementExtra id st) /\
  handleDecrementExtra id (handleDecrementExtra id' st)
  = handleDecrementExtra id' (handleDecrementExtra id st).
Proof.
  intros Hne.
  unfold handleIncrementExtra, handleDecrementExtra, setExtras; cbn.
  repeat split; f_equal; rewrite !map_map; apply map_ext; intros x;
    destruct (Z.eqb_spec (extra_id x) id) as [E|E];
    destruct (Z.eqb_spec (extra_id x) id') as [E'|E']; cbn;
    try congruence;
    repeat match goal with
           | |- context [0 <? ?q] => destruct (0 <? q); cbn
           | |- context [extra_id ?x =? ?j] =>
               destruct (Z.eqb_spec (extra_id x) j); cbn; try congruence
           end;
    reflexivity.
Qed.

Lemma run_repeat_DecrementFood st (n : nat) :
  1 <= foodQuantity st ->
  run formatValue st (repeat DecrementFood n)
  = setFoodQuantity (Z.max 1 (foodQuantity st - Z.of_nat n)) st.
Proof.
  revert st. induction n as [|n IH]; intros st H.
  - cbn [repeat run fold_left]. destruct st as [f l fav q]; cbn in *.
    unfold setFoodQuantity; cbn. f_equal. lia.
  - cbn [repeat]. unfold run in *. cbn [fold_left step].
    unfold handleDecrementFood.
    destruct (Z.eqb_spec (foodQuantity st) 1) as [E|E].
    + rewrite IH by exact H. f_equal. lia.
    + rewrite IH by (cbn; lia).
      destruct st as [f l fav q]; unfold setFoodQuantity; cbn in *.
      f_equal. lia.
Qed.

Lemma run_repeat_IncrementFood st (n : nat) :
  run formatValue st (repeat IncrementFood n)
  = setFoodQuantity (foodQuantity st + Z.of_nat n) st.
Proof.
  revert st. induction n as [|n IH]; intros st.
  - destruct st; unfold setFoodQuantity; cbn. f_equal. lia.
  - cbn [repeat]. unfold run in *. cbn [fold_left step]. rewrite IH.
    destruct st; unfold handleIncrementFood, setFoodQuantity; cbn.
    f_equal. lia.
Qed.

Lemma run_app (st : State num) (evs evs' : list (@Event num)) :
  run formatValue st (evs ++ evs')
  = run formatValue (run formatValue st evs) evs'.
Proof. apply fold_left_app. Qed.

(** X5: the item quantity saturates at 1: from a quantity of at least 1,
    [n] presses on minus leave the larger of 1 and the quantity less [n], and
    do not touch the rest of the state. *)
Theorem decrementFood_n_times st (n : nat) :
  1 <= foodQuantity st ->
  foodQuantity (run formatValue st (repeat DecrementFood n))
  = Z.max 1 (foodQuantity st - Z.of_nat n) /\
  food (run formatValue st (repeat DecrementFood n)) = food st /\
  extras (run formatValue st (repeat DecrementFood n)) = extras st /\
  isFavorite (run formatValue st (repeat DecrementFood n)) = isFavorite st.
Proof.
  intros H. rewrite run_repeat_DecrementFood by exact H.
  repeat split.
Qed.

(** X6: [n] presses on plus followed by [n] presses on minus give back the
    state, whenever the item quantity is at least 1. *)
Theorem incrementFood_then_decrementFood st (n : nat) :
  1 <= foodQuantity st ->
  run formatValue st (repeat IncrementFood n ++ repeat DecrementFood n) = st.
Proof.
  intros H. rewrite run_app, run_repeat_IncrementFood.
  rewrite run_repeat_DecrementFood by (cbn; lia).
  destruct st as [f l fav q]; unfold setFoodQuantity; cbn in *.
  f_equal. lia.
Qed.

End QuantityHandlers.

(** ** Sequences of events between two loads *)

Section Sessions.

Context {num : Type} {N : JsNumber num}.
Variable formatValue : option num -> string.

Implicit Types (st : State num) (extra : Extra num) (id : Z)
         (ev : @Event num) (evs : list (@Event num)).

(** The extra [n] presses on minus leave behind. *)
Lemma run_repeat_DecrementExtra id (n : nat) st :
  run formatValue st (repeat (DecrementExtra id) n)
  = setExtras
      (map (fun extra =>
              if extra_id extra =? id
              then withQuantity extra
                     (if 0 <=? extra_quantity extra
                      then Z.max 0 (extra_quantity extra - Z.of_nat n)
                      else extra_quantity extra)
              else extra) (extras st)) st.
Proof.
  revert st. induction n as [|n IH]; intros st.
  - cbn [repeat run fold_left]. rewrite <- (setExtras_same st) at 1.
    f_equal. symmetry. apply map_unchanged. intros x _.
    destruct (extra_id x =? id); [|reflexivity].
    transitivity (withQuantity x (extra_quantity x));
      [|apply withQuantity_same].
    f_equal. destruct (Z.leb_spec 0 (extra_quantity x)); lia.
  - cbn [repeat]. unfold run in *. cbn [fold_left step]. rewrite IH.
    destruct st as [f l fav q]. unfold handleDecrementExtra, setExtras; cbn.
    f_equal. rewrite map_map. apply map_ext. intros x.
    destruct (extra_id x =? id) eqn:E; cbn; [|now rewrite E].
    destruct (Z.ltb_spec 0 (extra_quantity x)) as [Hq|Hq]; cbn; rewrite E.
    + unfold withQuantity; cbn. f_equal.
      destruct (Z.leb_spec 0 (extra_quantity x - 1));
        destruct (Z.leb_spec 0 (extra_quantity x)); lia.
    + f_equal. destruct (Z.leb_spec 0 (extra_quantity x)); lia.
Qed.

(** X7: an extra's quantity saturates at 0: on non-negative quantities, [n]
    presses on the minus of an identifier leave each extra that carries it
    with the larger of 0 and its quantity less [n], and the other extras as
    they were. *)
Theorem decrementExtra_n_times id (n : nat) st i extra :
  nonNegativeExtras st ->
  nth_error (extras st) i = Some extra ->
  nth_error (extras (run formatValue st (repeat (DecrementExtra id) n))) i
  = Some (if extra_id extra =? id
          then withQuantity extra
                            (Z.max 0 (extra_quantity extra - Z.of_nat n))
          else extra).
Proof.
  intros Hnn Hi. rewrite run_repeat_DecrementExtra. cbn.
  rewrite nth_error_map, Hi. cbn.
  unfold nonNegativeExtras in Hnn. rewrite Forall_forall in Hnn.
  specialize (Hnn extra (nth_error_In _ _ Hi)).
  destruct (Z.leb_spec 0 (extra_quantity extra)); [reflexivity|lia].
Qed.

(** What one event other than a load keeps. *)
Lemma step_loadFree_extras st ev :
  isLoad ev = false ->
  map (fun extra => withQuantity extra 0) (extras (step formatValue st ev))
  = map (fun extra => withQuantity extra 0) (extras st).
Proof.
  intros H. destruct ev; try discriminate H; cbn;
    try reflexivity.
  - rewrite map_map. apply map_ext. intros x.
    now destruct (extra_id x =? id).
  - rewrite map_map. apply map_ext. intros x.
    now destruct ((extra_id x =? id) && (0 <? extra_quantity x)).
  - unfold handleDecrementFood. now destruct (foodQuantity st =? 1).
  - unfold toggleFavorite. now destruct (negb (isFavorite st)).
Qed.

Lemma step_loadFree_coreFields st ev :
  isLoad ev = false ->
  coreFields (food (step formatValue st ev)) = coreFields (food st).
Proof.
  intros H. destruct ev; try discriminate H; cbn; try reflexivity.
  - unfold handleDecrementFood. now destruct (foodQuantity st =? 1).
  - unfold toggleFavorite. now destruct (negb (isFavorite st)).
Qed.

Lemma loadFree_cons ev evs :
  loadFree (ev :: evs) = true -> isLoad ev = false /\ loadFree evs = true.
Proof.
  unfold loadFree; cbn. intros H. apply andb_prop in H as [H1 H2].
  split; [now apply negb_true_iff|exact H2].
Qed.

(** X8: between two loads the extras sequence keeps its rows: whatever the
    presses, it has the same extras in the same order with the same
    identifiers, names and values; only quantities move. *)
Theorem loadFree_extras_rows st evs :
  loadFree evs = true ->
  map (fun extra => withQuantity extra 0) (extras (run formatValue st evs))
  = map (fun extra => withQuantity extra 0) (extras st).
Proof.
  revert st. induction evs as [|ev evs IH]; intros st H; [reflexivity|].
  apply loadFree_cons in H as [Hev Hevs].
  unfold run in *. cbn [fold_left]. rewrite IH by exact Hevs.
  now apply step_loadFree_extras.
Qed.

(** X9: between two loads no handler changes the identifier, the name, the
    description, the price or the image of the item. *)
Theorem loadFree_coreFields st evs :
  loadFree evs = true ->
  food_id (food (run formatValue st evs)) = food_id (food st) /\
  food_name (food (run formatValue st evs)) = food_name (food st) /\
  food_description (food (run formatValue st evs))
  = food_description (food st) /\
  food_price (food (run formatValue st evs)) = food_price (food st) /\
  food_image_url (food (run formatValue st evs)) = food_image_url (food st).
Proof.
  intros H.
  assert (coreFields (food (run formatValue st evs)) = coreFields (food st))
    as Hcore.
  { revert st. induction evs as [|ev evs IH]; intros st; [reflexivity|].
    apply loadFree_cons in H as [Hev Hevs].
    unfold run in *. cbn [fold_left]. rewrite IH by exact Hevs.
    now apply step_loadFree_coreFields. }
  unfold coreFields in Hcore. injection Hcore as -> -> -> -> ->.
  repeat split.
Qed.

(** A deleted formatted price stays deleted until the next load. *)
Lemma step_loadFree_formattedPrice st ev :
  isLoad ev = false ->
  food_formattedPrice (food st) = None ->
  food_formattedPrice (food (step formatValue st ev)) = None.
Proof.
  intros H Hnone. destruct ev; try discriminate H; cbn; try assumption;
    try reflexivity.
  - unfold handleDecrementFood. now destruct (foodQuantity st =? 1).
  - unfold toggleFavorite. now destruct (negb (isFavorite st)).
Qed.

Lemma run_loadFree_formattedPrice st evs :
  loadFree evs = true ->
  food_formattedPrice (food st) = None ->
  food_formattedPrice (food (run formatValue st evs)) = None.
Proof.
  revert st. induction evs as [|ev evs IH]; intros st H Hnone; [exact Hnone|].
  apply loadFree_cons in H as [Hev Hevs].
  unfold run in *. cbn [fold_left]. apply IH; [exact Hevs|].
  now apply step_loadFree_formattedPrice.
Qed.

Lemma present_fst (sv : State num * View) evs :
  fst (fold_left (present formatValue) evs sv)
  = run formatValue (fst sv) evs.
Proof.
  revert sv. induction evs as [|ev evs IH]; intros sv; [reflexivity|].
  cbn [fold_left]. rewrite IH. reflexivity.
Qed.



(** X11: the favorite toggle and the order submission leave the total as it
    is, number and text. *)
Theorem total_after_toggle_or_order st :
  total (fst (toggleFavorite st)) = total st /\
  total (fst (handleFinishOrder st)) = total st /\
  cartTotal formatValue (fst (toggleFavorite st)) = cartTotal formatValue st /\
  cartTotal formatValue (fst (handleFinishOrder st))
  = cartTotal formatValue st.
Proof.
  assert (total (fst (toggleFavorite st)) = total st) as Ht.
  { unfold toggleFavorite. now destruct (negb (isFavorite st)). }
  unfold cartTotal. rewrite Ht. repeat split.
Qed.

(** X12: [n] presses on the favorite icon leave the flag as it was when [n]
    is even and flipped when [n] is odd; the rest of the state but the [food]
    record is untouched. *)
Theorem toggleFavorite_n_times st (n : nat) :
  isFavorite (run formatValue st (repeat ToggleFavorite n))
  = (if Nat.even n then isFavorite st else negb (isFavorite st)) /\
  extras (run formatValue st (repeat ToggleFavorite n)) = extras st /\
  foodQuantity (run formatValue st (repeat ToggleFavorite n))
  = foodQuantity st.
Proof.
  revert st. induction n as [|n IH]; intros st; [repeat split|].
  cbn [repeat]. unfold run in *. cbn [fold_left step].
  destruct (IH (fst (toggleFavorite st))) as (Hf & He & Hq).
  rewrite Hf, He, Hq, toggleFavorite_flag.
  rewrite Nat.even_succ, <- Nat.negb_even.
  repeat split.
  - destruct (Nat.even n); cbn; [reflexivity|apply negb_involutive].
  - unfold toggleFavorite. now destruct (negb (isFavorite st)).
  - unfold toggleFavorite. now destruct (negb (isFavorite st)).
Qed.

(** X13: what is sent depends on what was pressed before: after a favorite
    toggle the order body has no [extras] either, it is the record the
    favorite request carried; and a second submission sends the body of the
    first. *)
Theorem orderPayload_after_toggle st :
  orderPayload (fst (toggleFavorite st))
  = deleteFormattedPrice (deleteExtras (food st)) /\
  food_extras (orderPayload (fst (toggleFavorite st))) = None /\
  (isFavorite st = false ->
   snd (toggleFavorite st)
   = PostFavorites (orderPayload (fst (toggleFavorite st)))) /\
  orderPayload (fst (handleFinishOrder st)) = orderPayload st.
Proof.
  assert (food (fst (toggleFavorite st))
          = deleteFormattedPrice (deleteExtras (food st))) as Hf.
  { unfold toggleFavorite. now destruct (negb (isFavorite st)). }
  unfold orderPayload, handleFinishOrder; cbn [snd fst food mutateFood].
  rewrite Hf. repeat split.
  intros Hfav. unfold toggleFavorite. rewrite Hfav. reflexivity.
Qed.

End Sessions.

(** ** The loader and the view *)

Section LoaderAndView.

Context {num : Type} {N : JsNumber num}.
Variable formatValue : option num -> string.

Implicit Types (st : State num) (extra : Extra num) (id : Z).

Lemma findIndex_existsb {A : Type} (p : A -> bool) (l : list A) :
  negb (findIndex p l =? -1) = existsb p l.
Proof.
  induction l as [|x l IH]; cbn; [reflexivity|].
  destruct (p x); [reflexivity|]. cbn. rewrite <- IH.
  pose proof (findIndex_lower_bound p l) as Hlow.
  destruct (Z.eqb_spec (findIndex p l) (-1)) as [E|E]; cbn; [reflexivity|].
  destruct (Z.eqb_spec (findIndex p l + 1) (-1)); [lia|reflexivity].
Qed.

(** X14: the loader can set the favorite flag and never clears it: after a
    load the flag is set when it was set before, or when the response has
    its extras and some entry of the favorites list carries the route
    identifier. *)
Theorem loadFood_flag routeId response favorites st :
  isFavorite (loadFood formatValue routeId response favorites st)
  = isFavorite st
    || match food_extras response with
       | Some _ => existsb (isRouteFood routeId) favorites
       | None => false
       end.
Proof.
  unfold loadFood. cbn.
  destruct (food_extras response) as [l|]; [|now rewrite orb_false_r].
  fold (isRouteFood (num:=num) routeId).
  rewrite findIndex_existsb.
  destruct (existsb (isRouteFood routeId) favorites); cbn.
  - now rewrite orb_true_r.
  - now rewrite orb_false_r.
Qed.

(** X15: a response without [extras] stops the loader after it has stored
    the item: the screen shows the new item's title and price over the rows,
    the header icon and the item quantity of before, whatever the favorites
    list holds. *)
Theorem render_after_load_without_extras routeId response favorites st :
  food_extras response = None ->
  view_foodTitle
    (render formatValue (loadFood formatValue routeId response favorites st))
  = food_name response /\
  view_foodPricing
    (render formatValue (loadFood formatValue routeId response favorites st))
  = Some (formatValue (food_price response)) /\
  view_additionals
    (render formatValue (loadFood formatValue routeId response favorites st))
  = view_additionals (render formatValue st) /\
  view_headerIcon
    (render formatValue (loadFood formatValue routeId response favorites st))
  = view_headerIcon (render formatValue st) /\
  view_foodQuantity
    (render formatValue (loadFood formatValue routeId response favorites st))
  = view_foodQuantity (render formatValue st).
Proof.
  intros H.
  assert (loadFood formatValue routeId response favorites st
          = mkState (withFormattedPrice response
                                        (formatValue (food_price response)))
                    (extras st) (isFavorite st) (foodQuantity st)) as ->.
  { unfold loadFood. cbn. now rewrite H. }
  repeat split.
Qed.

(** X16: after a load whose response has its extras the screen shows the
    price the formatter made of the response's price and one row per extra
    of the response, in the response's order, each at quantity 0 whatever
    the response or the previous rows said; the item quantity is the one of
    before the load. *)
Theorem render_after_load routeId response favorites responseExtras st :
  food_extras response = Some responseExtras ->
  view_foodPricing
    (render formatValue (loadFood formatValue routeId response favorites st))
  = Some (formatValue (food_price response)) /\
  view_foodTitle
    (render formatValue (loadFood formatValue routeId response favorites st))
  = food_name response /\
  view_additionals
    (render formatValue (loadFood formatValue routeId response favorites st))
  = map (fun extra =>
           mkExtraRow (extra_id extra) (extra_name extra) 0
                      (DecrementExtra (extra_id extra))
                      (IncrementExtra (extra_id extra))) responseExtras /\
  view_foodQuantity
    (render formatValue (loadFood formatValue routeId response favorites st))
  = foodQuantity st.
Proof.
  intros H.
  assert (exists fav,
            loadFood formatValue routeId response favorites st
            = mkState (withFormattedPrice response
                                          (formatValue (food_price response)))
                      (map (fun extra => withQuantity extra 0) responseExtras)
                      fav (foodQuantity st)) as [fav ->].
  { unfold loadFood. cbn. rewrite H.
    destruct (negb _); eexists; reflexivity. }
  cbn. rewrite map_map. repeat split.
Qed.

(** X17: pressing the plus of a row adds 1 to that row and to every row with
    the same key; pressing its minus takes 1 from those of them that are
    above 0; the other rows, and the order of the rows, are unchanged. *)
Theorem press_on_row st i row j row' :
  nth_error (view_additionals (render formatValue st)) i = Some row ->
  nth_error (view_additionals (render formatValue st)) j = Some row' ->
  nth_error (view_additionals
               (render formatValue (step formatValue st (row_plus row)))) j
  = Some (mkExtraRow (row_key row') (row_name row')
            (if row_key row' =? row_key row
             then row_quantity row' + 1 else row_quantity row')
            (row_minus row') (row_plus row')) /\
  nth_error (view_additionals
               (render formatValue (step formatValue st (row_minus row)))) j
  = Some (mkExtraRow (row_key row') (row_name row')
            (if (row_key row' =? row_key row) && (0 <? row_quantity row')
             then row_quantity row' - 1 else row_quantity row')
            (row_minus row') (row_plus row')).
Proof.
  cbn [render view_additionals]. rewrite !nth_error_map.
  destruct (nth_error (extras st) i) as [x|]; [|discriminate].
  destruct (nth_error (extras st) j) as [y|] eqn:Hj; [|discriminate].
  cbn. intros [= <-] [= <-]. cbn.
  rewrite !nth_error_map, Hj. cbn.
  split; f_equal.
  - now destruct (extra_id y =? extra_id x).
  - now destruct ((extra_id y =? extra_id x) && (0 <? extra_quantity y)).
Qed.

(** X18: the header shows one of two icon names, "favorite" exactly when the
    flag is set, and a press on it switches to the other name. *)
Theorem header_icon_switches st :
  (view_headerIcon (render formatValue st) = "favorite"%string
   <-> isFavorite st = true) /\
  view_headerIcon
    (render formatValue
            (step formatValue st (view_headerPress (render formatValue st))))
  = (if isFavorite st then "favorite-border"%string else "favorite"%string).
Proof.
  cbn [render view_headerIcon view_headerPress step].
  unfold favoriteIconName. rewrite toggleFavorite_flag.
  destruct (isFavorite st); cbn; repeat split; congruence.
Qed.

End LoaderAndView.

(** ** The total while no extra is taken, in binary64 *)

Lemma float_mul_by_zero (v : float) :
  isFiniteNumber v = true ->
  exists s, Prim2SF (PrimFloat.mul v (float_of_Z 0)) = S754_zero s.
Proof.
  unfold isFiniteNumber. intros H. rewrite mul_spec.
  change (Prim2SF (float_of_Z 0)) with (S754_zero false).
  destruct (Prim2SF v) as [s| | |s m e]; try discriminate H;
    eexists; reflexivity.
Qed.

Lemma float_add_zeros (acc x : float) (s : bool) :
  Prim2SF acc = S754_zero false ->
  Prim2SF x = S754_zero s ->
  Prim2SF (PrimFloat.add acc x) = S754_zero false.
Proof.
  intros Ha Hx. rewrite add_spec, Ha, Hx. now destruct s.
Qed.

Lemma float_fold_untaken (l : list (Extra float)) (acc : float) :
  (forall extra, In extra l ->
     extra_quantity extra = 0 /\ isFiniteNumber (extra_value extra) = true) ->
  Prim2SF acc = S754_zero false ->
  Prim2SF
    (fold_left
       (fun accumulator extra =>
          PrimFloat.add accumulator
            (PrimFloat.mul (extra_value extra)
                           (float_of_Z (extra_quantity extra))))
       l acc)
  = S754_zero false.
Proof.
  revert acc. induction l as [|x l IH]; intros acc H Hacc; [exact Hacc|].
  cbn [fold_left]. apply IH.
  - intros y Hy. apply H. now right.
  - destruct (H x (or_introl eq_refl)) as [Hq Hfin]. rewrite Hq.
    destruct (float_mul_by_zero _ Hfin) as [s Hs].
    exact (float_add_zeros _ _ Hacc Hs).
Qed.

Lemma float_add_zero_parsed (price : option float) :
  PrimFloat.add 0 (float_parseFloat price) = float_parseFloat price.
Proof.
  destruct price as [p|]; cbn [float_parseFloat].
  - destruct (PrimFloat.eqb p 0) eqn:E; [reflexivity|].
    apply Prim2SF_inj. rewrite add_spec.
    rewrite eqb_spec in E.
    change (Prim2SF 0) with (S754_zero false) in *.
    destruct (Prim2SF p) as [s| | |s m e]; try reflexivity.
    destruct s; discriminate E.
  - apply float_add_nan_r.
Qed.

(** X19: in binary64, while every extra stands at quantity 0 and has a
    finite value, the extras add nothing: the total is the parsed price times
    the item quantity. *)
Theorem total_no_extra_taken (st : State float) :
  (forall extra, In extra (extras st) ->
     extra_quantity extra = 0 /\ isFiniteNumber (extra_value extra) = true) ->
  total st
  = PrimFloat.mul (float_parseFloat (food_price (food st)))
                  (float_of_Z (foodQuantity st)).
Proof.
  intros H. unfold total. cbn zeta.
  assert (totalExtras (extras st) = 0%float) as ->.
  { apply Prim2SF_inj. unfold totalExtras.
    cbn [add mul ofZ zero float_JsNumber].
    now apply float_fold_untaken. }
  cbn [parseFloat add mul ofZ float_JsNumber].
  change (float_parseFloat (Some 0%float)) with 0%float.
  now rewrite float_add_zero_parsed.
Qed.

(** ** The total in binary64: what the order of the extras can change *)

Lemma float_add_comm (x y : float) : PrimFloat.add x y = PrimFloat.add y x.
Proof.
  apply Prim2SF_inj. rewrite !add_spec. unfold SF64add, SFadd.
  destruct (Prim2SF x) as [sx| sx | |sx mx ex],
           (Prim2SF y) as [sy| sy | |sy my ey];
    try reflexivity; try (now destruct sx, sy).
  cbv zeta. rewrite (Z.min_comm ey ex). f_equal. apply Z.add_comm.
Qed.

(** Adding to the initial [0.0] only turns a [-0] into [+0]. *)
Lemma Prim2SF_zero_add (x : float) :
  Prim2SF (PrimFloat.add 0 x)
  = match Prim2SF x with
    | S754_zero _ => S754_zero false
    | X => X
    end.
Proof.
  rewrite add_spec. change (Prim2SF 0) with (S754_zero false).
  destruct (Prim2SF x) as [[]| | |]; reflexivity.
Qed.

Lemma float_first_two_swap (x y : float) :
  PrimFloat.add (PrimFloat.add 0 x) y = PrimFloat.add (PrimFloat.add 0 y) x.
Proof.
  apply Prim2SF_inj. rewrite (add_spec (PrimFloat.add 0 x)).
  rewrite (add_spec (PrimFloat.add 0 y)), !Prim2SF_zero_add.
  pose proof (float_add_comm x y) as Hc.
  apply (f_equal Prim2SF) in Hc. rewrite !add_spec in Hc.
  destruct (Prim2SF x) as [sx| sx | |sx mx ex],
           (Prim2SF y) as [sy| sy | |sy my ey];
    try reflexivity; try exact Hc; try (now destruct sx); try (now destruct sy);
    try (now destruct sx, sy).
Qed.

Lemma float_eqb_zero (x : float) :
  PrimFloat.eqb x 0 = match Prim2SF x with S754_zero _ => true | _ => false end.
Proof.
  rewrite eqb_spec. change (Prim2SF 0) with (S754_zero false).
  destruct (Prim2SF x) as [s|s| |s m e]; try reflexivity; now destruct s.
Qed.

(** Printing and parsing returns every number but [-0]. *)
Lemma float_parseFloat_number (p : float) :
  isNegativeZero p = false -> float_parseFloat (Some p) = p.
Proof.
  unfold isNegativeZero, float_parseFloat. intros H.
  rewrite float_eqb_zero.
  destruct (Prim2SF p) as [[]| | |] eqn:E; try reflexivity; [discriminate H|].
  apply Prim2SF_inj. now rewrite E.
Qed.

(** The passage of the subtotal through text is lost in the addition. *)
Lemma float_add_parsed (x y : float) :
  isNegativeZero y = false ->
  PrimFloat.add (float_parseFloat (Some x)) y = PrimFloat.add x y.
Proof.
  unfold isNegativeZero, float_parseFloat. intros H.
  rewrite float_eqb_zero.
  destruct (Prim2SF x) as [s| | |] eqn:E; try reflexivity.
  apply Prim2SF_inj. rewrite !add_spec, E.
  change (Prim2SF 0) with (S754_zero false).
  destruct (Prim2SF y) as [[]| | |]; try reflexivity; try discriminate H.
  now destruct s.
Qed.

Lemma float_zero_add_not_negative_zero (x : float) :
  isNegativeZero (PrimFloat.add 0 x) = false.
Proof.
  unfold isNegativeZero. rewrite Prim2SF_zero_add.
  now destruct (Prim2SF x) as [[]| | |].
Qed.

Lemma float_absorb_untaken (acc v : float) :
  isNegativeZero acc = false ->
  isFiniteNumber v = true ->
  PrimFloat.add acc (PrimFloat.mul v (float_of_Z 0)) = acc.
Proof.
  unfold isNegativeZero. intros Hacc Hv.
  destruct (float_mul_by_zero _ Hv) as [s Hs].
  apply Prim2SF_inj. rewrite add_spec, Hs.
  destruct (Prim2SF acc) as [[]| | |]; try reflexivity; try discriminate Hacc.
  now destruct s.
Qed.

Lemma isTaken_false {num : Type} (extra : Extra num) :
  isTaken extra = false -> extra_quantity extra = 0.
Proof.
  unfold isTaken. intros H. apply negb_false_iff in H. now apply Z.eqb_eq.
Qed.

Lemma float_fold_skip_untaken (l : list (Extra float)) (acc : float) :
  isNegativeZero acc = false ->
  (forall extra, In extra l ->
     isTaken extra = false /\ isFiniteNumber (extra_value extra) = true) ->
  fold_left
    (fun accumulator extra =>
       PrimFloat.add accumulator
         (PrimFloat.mul (extra_value extra)
                        (float_of_Z (extra_quantity extra))))
    l acc
  = acc.
Proof.
  intros Hacc. induction l as [|x l IH]; intros H; [reflexivity|].
  cbn [fold_left].
  destruct (H x (or_introl eq_refl)) as [Hq Hfin].
  rewrite (isTaken_false _ Hq), float_absorb_untaken by assumption.
  apply IH. intros y Hy. apply H. now right.
Qed.

Lemma totalExtras_one_taken (l : list (Extra float)) :
  (forall extra, In extra l -> isTaken extra = false ->
     isFiniteNumber (extra_value extra) = true) ->
  (List.length (filter isTaken l) <= 1)%nat ->
  totalExtras l = totalExtras (filter isTaken l).
Proof.
  unfold totalExtras. cbn [add mul ofZ zero float_JsNumber].
  induction l as [|x l IH]; intros Hfin Hone; [reflexivity|].
  cbn [filter] in Hone |- *. destruct (isTaken x) eqn:Hx.
  - assert (filter isTaken l = []) as Hnil.
    { revert Hone. destruct (filter isTaken l); cbn; intros Hone;
        [reflexivity|lia]. }
    rewrite Hnil. cbn [fold_left].
    apply float_fold_skip_untaken.
    + apply float_zero_add_not_negative_zero.
    + intros y Hy.
      assert (isTaken y = false) as Hy'.
      { destruct (isTaken y) eqn:E; [|reflexivity].
        assert (In y (filter isTaken l)) as Hin
            by (apply filter_In; split; assumption).
        rewrite Hnil in Hin. destruct Hin. }
      split; [exact Hy'|]. apply Hfin; [now right|exact Hy'].
  - cbn [fold_left].
    rewrite (isTaken_false _ Hx), float_absorb_untaken;
      [|reflexivity|apply Hfin; [now left|exact Hx]].
    apply IH; [|exact Hone].
    intros y Hy. apply Hfin. now right.
Qed.

Lemma Permutation_filter_isTaken {num : Type} (l l' : list (Extra num)) :
  Permutation l l' -> Permutation (filter isTaken l) (filter isTaken l').
Proof.
  induction 1 as [|x l l' _ IH|x y l|l l' l'' _ IH1 _ IH2]; cbn.
  - constructor.
  - destruct (isTaken x); [now constructor|exact IH].
  - destruct (isTaken x), (isTaken y);
      try apply Permutation_refl; apply perm_swap.
  - now transitivity (filter isTaken l').
Qed.

Lemma totalExtras_two_extras (l l' : list (Extra float)) :
  Permutation l l' ->
  (List.length l <= 2)%nat ->
  totalExtras l = totalExtras l'.
Proof.
  intros Hperm Hlen.
  destruct l as [|a [|b [|c l]]].
  - now rewrite (Permutation_nil Hperm).
  - now rewrite (Permutation_length_1_inv Hperm).
  - destruct (Permutation_length_2_inv Hperm) as [-> | ->]; [reflexivity|].
    unfold totalExtras. cbn [fold_left add mul ofZ zero float_JsNumber].
    apply float_first_two_swap.
  - cbn in Hlen. lia.
Qed.

Lemma totalExtras_one_taken_Permutation (l l' : list (Extra float)) :
  Permutation l l' ->
  (forall extra, In extra l -> isTaken extra = false ->
     isFiniteNumber (extra_value extra) = true) ->
  (List.length (filter isTaken l) <= 1)%nat ->
  totalExtras l = totalExtras l'.
Proof.
  intros Hperm Hfin Hone.
  pose proof (Permutation_filter_isTaken Hperm) as Hf.
  rewrite (totalExtras_one_taken l Hfin Hone).
  rewrite (totalExtras_one_taken l').
  - revert Hone Hf. destruct (filter isTaken l) as [|a [|b t]]; intros Hone Hf.
    + now rewrite (Permutation_nil Hf).
    + now rewrite (Permutation_length_1_inv Hf).
    + cbn in Hone. lia.
  - intros y Hy. apply Hfin. apply (Permutation_in _ (Permutation_sym Hperm) Hy).
  - now rewrite <- (Permutation_length Hf).
Qed.

Lemma totalExtras_snoc {num : Type} {N : JsNumber num}
    (l : list (Extra num)) (extra : Extra num) :
  totalExtras (l ++ [extra])
  = add (totalExtras l)
        (mul (extra_value extra) (ofZ (extra_quantity extra))).
Proof.
  unfold totalExtras. now rewrite fold_left_app.
Qed.

(** C1, in binary64: for a price other than [-0] the total is
    [(S + price) * foodQuantity], where [S] is the sum [totalExtras] of the
    subtotals [value * quantity], accumulated from [0.0] in the order of the
    sequence: [S] of the empty sequence is [0.0] and [S] of a sequence
    followed by an extra is [S] of the sequence plus that extra's subtotal.
    Two states that differ only in the order of their extras have the same
    total when there are at most two extras, and when at most one extra is
    taken and those at quantity 0 have finite values. *)
Theorem total_binary64 (st : State float) (p : float) :
  food_price (food st) = Some p ->
  isNegativeZero p = false ->
  total st
  = PrimFloat.mul (PrimFloat.add (totalExtras (extras st)) p)
                  (float_of_Z (foodQuantity st)) /\
  totalExtras (@nil (Extra float)) = 0%float /\
  (forall l extra,
     totalExtras (l ++ [extra])
     = PrimFloat.add (totalExtras l)
         (PrimFloat.mul (extra_value extra)
                        (float_of_Z (extra_quantity extra)))) /\
  (forall st' : State float,
     Permutation (extras st) (extras st') ->
     food_price (food st') = Some p ->
     foodQuantity st' = foodQuantity st ->
     (List.length (extras st) <= 2)%nat \/
     ((List.length (filter isTaken (extras st)) <= 1)%nat /\
      forall extra, In extra (extras st) -> isTaken extra = false ->
                    isFiniteNumber (extra_value extra) = true) ->
     total st' = total st).
Proof.
  intros Hp Hnz.
  assert (forall s : State float,
            food_price (food s) = Some p ->
            total s
            = PrimFloat.mul (PrimFloat.add (totalExtras (extras s)) p)
                            (float_of_Z (foodQuantity s))) as Hformula.
  { intros s Hs. unfold total. cbn zeta. rewrite Hs.
    cbn [parseFloat add mul ofZ float_JsNumber].
    rewrite (float_parseFloat_number _ Hnz).
    now rewrite (float_add_parsed _ _ Hnz). }
  split; [now apply Hformula|].
  split; [reflexivity|].
  split; [intros l extra; exact (totalExtras_snoc l extra)|].
  intros st' Hperm Hp' Hq Hcase.
  rewrite (Hformula st Hp), (Hformula st' Hp'), Hq.
  do 2 f_equal. symmetry.
  destruct Hcase as [Hlen|[Hone Hfin]].
  - now apply totalExtras_two_extras.
  - now apply totalExtras_one_taken_Permutation.
Qed.

(** ** The further properties on the sample data *)

Lemma loadedState_nonNegative : nonNegativeExtras loadedState.
Proof.
  unfold nonNegativeExtras. cbn.
  repeat (apply Forall_cons; [cbn; lia|]). apply Forall_nil.
Qed.

Lemma increment_then_decrement_extra_witness :
  handleDecrementExtra 1 (handleIncrementExtra 1 loadedState) = loadedState.
Proof.
  apply increment_then_decrement_extra. exact loadedState_nonNegative.
Defined.

Lemma decrement_then_increment_extra_witness :
  nth_error (extras (handleIncrementExtra 1
                       (handleDecrementExtra 1 loadedState))) 0
  = Some (withQuantity bacon 1).
Proof.
  apply (@decrement_then_increment_extra float 1 loadedState 0%nat
           (withQuantity bacon 0)).
  reflexivity.
Defined.

Lemma extra_handlers_commute_witness :
  handleIncrementExtra 1 (handleDecrementExtra 2 loadedState)
  = handleDecrementExtra 2 (handleIncrementExtra 1 loadedState).
Proof.
  apply (proj1 (proj2 (@extra_handlers_commute float 1 2 loadedState
                         ltac:(discriminate)))).
Defined.

Lemma decrementFood_n_times_witness :
  foodQuantity (run sampleFormat (handleIncrementFood loadedState)
                    (repeat DecrementFood 5)) = 1.
Proof.
  apply (proj1 (@decrementFood_n_times float sampleFormat
                  (handleIncrementFood loadedState) 5%nat
                  ltac:(cbn; lia))).
Defined.

Lemma incrementFood_then_decrementFood_witness :
  run sampleFormat loadedState
      (repeat IncrementFood 3 ++ repeat DecrementFood 3) = loadedState.
Proof.
  apply incrementFood_then_decrementFood. cbn. lia.
Defined.

Lemma decrementExtra_n_times_witness :
  nth_error
    (extras (run sampleFormat
                 (handleIncrementExtra 1 (handleIncrementExtra 1 loadedState))
                 (repeat (DecrementExtra 1) 5))) 0
  = Some (withQuantity bacon 0).
Proof.
  apply (@decrementExtra_n_times float sampleFormat 1 5%nat
           (handleIncrementExtra 1 (handleIncrementExtra 1 loadedState))
           0%nat (withQuantity bacon 2)).
  - unfold nonNegativeExtras. cbn.
    repeat (apply Forall_cons; [cbn; lia|]). apply Forall_nil.
  - reflexivity.
Defined.

Lemma loadFree_extras_rows_witness :
  map (fun extra => withQuantity extra 0)
      (extras (run sampleFormat loadedState
                   [IncrementExtra 1; ToggleFavorite; DecrementExtra 2;
                    IncrementFood; FinishOrder]))
  = [bacon; cheese].
Proof.
  apply (@loadFree_extras_rows float sampleFormat loadedState
           [IncrementExtra 1; ToggleFavorite; DecrementExtra 2;
            IncrementFood; FinishOrder]).
  reflexivity.
Defined.

Lemma loadFree_coreFields_witness :
  food_price (food (run sampleFormat loadedState
                        [ToggleFavorite; IncrementExtra 1; FinishOrder]))
  = Some 10%float.
Proof.
  destruct (@loadFree_coreFields float sampleFormat loadedState
              [ToggleFavorite; IncrementExtra 1; FinishOrder] eq_refl)
    as (_ & _ & _ & Hprice & _).
  exact Hprice.
Defined.


Lemma render_after_load_without_extras_witness :
  view_additionals
    (render sampleFormat
            (loadFood sampleFormat 7 (deleteExtras (pizzaResponse []))
                      [pizzaResponse []] loadedState))
  = [renderExtra bacon; renderExtra cheese].
Proof.
  destruct (@render_after_load_without_extras float _ sampleFormat 7
              (deleteExtras (pizzaResponse [])) [pizzaResponse []]
              loadedState eq_refl) as (_ & _ & Hrows & _).
  exact Hrows.
Defined.

Lemma render_after_load_witness :
  view_foodQuantity
    (render sampleFormat
            (loadFood sampleFormat 7 (pizzaResponse [sauce; onion; olives]) []
                      (handleIncrementFood
                         (handleIncrementExtra 1 loadedState))))
  = 2.
Proof.
  destruct (@render_after_load float _ sampleFormat 7
              (pizzaResponse [sauce; onion; olives]) []
              [sauce; onion; olives]
              (handleIncrementFood (handleIncrementExtra 1 loadedState))
              eq_refl) as (_ & _ & _ & Hq).
  exact Hq.
Defined.

Lemma press_on_row_witness :
  nth_error
    (view_additionals
       (render sampleFormat (step sampleFormat loadedState (IncrementExtra 1))))
    0
  = Some (mkExtraRow 1 "Bacon" 1 (DecrementExtra 1) (IncrementExtra 1)).
Proof.
  apply (proj1 (@press_on_row float _ sampleFormat loadedState 0%nat
                  (renderExtra bacon) 0%nat (renderExtra bacon)
                  eq_refl eq_refl)).
Defined.

Lemma total_no_extra_taken_witness :
  total (run sampleFormat loadedState [IncrementFood; IncrementFood])
  = 30%float.
Proof.
  apply (@total_no_extra_taken
           (run sampleFormat loadedState [IncrementFood; IncrementFood])).
  intros extra [<-|[<-|[]]]; split; reflexivity.
Defined.

Lemma total_binary64_witness :
  total pairDescending = total pairAscending.
Proof.
  apply (proj2 (proj2 (proj2
           (@total_binary64 pairAscending _ eq_refl eq_refl)))).
  - apply perm_swap.
  - reflexivity.
  - reflexivity.
  - left. cbn. lia.
Defined.
